(** * The REST API component of IPFS Cluster: api/rest/restapi.go

    A shallow embedding of the route handlers of [restapi.go] and of the
    three pieces of logic they carry: the decoding of query parameters
    into filter masks, the choice between the node-scoped and the
    cluster-wide RPC method, and the unification of local results into
    the global shape.

    A handler is a computation that records, in order, every RPC it
    issues and every [SendResponse] it performs.  The RPC server is a
    function from a method and its argument to the value left in the
    response variable and the error returned.

    Modelling conventions.
    - Go [error] values are observed only through [Error()], so an error
      is its text and [nil] is [None].
    - [PinType] is a [uint64] used only with [|], [&] and comparisons,
      none of which can wrap around; it is modelled as [N].
    - A slice [[]*T] whose elements the handlers dereference ([[]*Pin],
      [[]*PinInfo]) is a list of values: the entries decoded from an RPC
      reply are taken to be non-nil.  [[]*GlobalPinInfo] keeps its
      pointers, [None] being [nil], because [pinInfosToGlobal] starts
      from a slice of nil pointers.
    - Logging calls are not modelled. *)

From Stdlib Require Import Ascii String NArith ZArith.
From stdpp Require Import gmap strings list.

Local Open Scope string_scope.
Local Open Scope list_scope.
Local Open Scope stdpp_scope.

(** ** Go library functions used by the handlers *)

(** [strings.Split(s, sep)] for a one-byte separator: the substrings
    between the occurrences of [sep]; [n] occurrences give [n + 1]
    substrings, so the empty string gives one empty substring. *)
Fixpoint strings_Split (s : string) (sep : ascii) : list string :=
  match s with
  | EmptyString => [EmptyString]
  | String c rest =>
      if Ascii.eqb c sep then EmptyString :: strings_Split rest sep
      else match strings_Split rest sep with
           | tok :: toks => String c tok :: toks
           | [] => [String c EmptyString]
           end
  end.

(** [url.Values]: the query parameters in order of appearance;
    [Values.Get] is the first value of the key, or the empty string. *)
Definition Values := list (string * string).

Fixpoint Values_Get (v : Values) (key : string) : string :=
  match v with
  | [] => ""
  | (k, x) :: rest => if String.eqb k key then x else Values_Get rest key
  end.

(** [net/http] status codes and [common.SetStatusAutomatically]. *)
Definition StatusOK : Z := 200.
Definition StatusBadRequest : Z := 400.
Definition StatusNotFound : Z := 404.
Definition StatusInternalServerError : Z := 500.

(** Modelled from the spec: the constant [common.SetStatusAutomatically]
    is declared in package [common], which is not among the sources; it
    is the status argument that selects the "automatic" status policy
    and is no HTTP status code. *)
Definition SetStatusAutomatically : Z := -1.

(** ** Package [types]: the data the handlers exchange *)

Definition error := string.
Definition peer_ID := string.
Definition Cid := string.

Definition PinType := N.

(** Modelled from the spec: the pin-type constants and the table
    [PinTypeFromString] are declared in package [api] (imported as
    [types]), which is not among the sources.  The spec describes the
    categories "data", "meta", "clusterdag", "shard", "all" and "bad" as
    bit flags composed with OR, an unrecognised token yielding "bad" and
    the empty token yielding "all". *)
Definition BadType : PinType := 1%N.
Definition DataType : PinType := 2%N.
Definition MetaType : PinType := 4%N.
Definition ClusterDAGType : PinType := 8%N.
Definition ShardType : PinType := 16%N.
Definition AllType : PinType :=
  N.lor (N.lor DataType MetaType) (N.lor ClusterDAGType ShardType).

Definition PinTypeFromString (str : string) : PinType :=
  if String.eqb str "data" then DataType
  else if String.eqb str "meta" then MetaType
  else if String.eqb str "clusterdag" then ClusterDAGType
  else if String.eqb str "shard" then ShardType
  else if String.eqb str "all" then AllType
  else if String.eqb str "" then AllType
  else BadType.

(** [TrackerStatus] is a bit mask over tracker states. *)
Definition TrackerStatus := Z.

(** [types.Pin]: the fields the handlers read.  The Go field [Type] is
    spelled [Type_] here. *)
Record Pin := { Pin_Cid : Cid; Type_ : PinType }.

Record PinPath := { Path : string }.

Record ID := { ID_ID : peer_ID }.

Record peerAddBody := { PeerID : string }.

Record PinInfo := { PinInfo_Cid : Cid; PinInfo_Peer : peer_ID; PinInfo_Status : TrackerStatus }.

Record GlobalPinInfo := { GlobalPinInfo_Cid : Cid; GlobalPinInfo_PeerMap : gmap string PinInfo }.

Record RepoGC := { RepoGC_Peer : peer_ID; RepoGC_Keys : list Cid; RepoGC_Error : string }.

Record GlobalRepoGC := { PeerMap : gmap string RepoGC }.

(** The [interface{}] handed to [SendResponse] as the response value:
    every type a handler of this file may put there. *)
Inductive Body :=
| BID (id : ID)
| BPin (p : Pin)
| BPins (ps : list Pin)
| BPinInfo (pi : PinInfo)
| BPinInfos (pis : list PinInfo)
| BGlobalPinInfo (g : GlobalPinInfo)
| BGlobalPinInfos (gs : list (option GlobalPinInfo))
| BRepoGC (g : RepoGC)
| BGlobalRepoGC (g : GlobalRepoGC).


(** ** The RPC client *)

(** The methods of service "Cluster" called by the handlers below. *)
Inductive rpcMethod :=
| Cluster_PeerAdd | Cluster_Unpin | Cluster_UnpinPath | Cluster_Pins | Cluster_PinGet
| Cluster_StatusAllLocal | Cluster_StatusAll | Cluster_StatusLocal | Cluster_Status
| Cluster_RecoverAllLocal | Cluster_RecoverAll | Cluster_RecoverLocal | Cluster_Recover
| Cluster_RepoGCLocal | Cluster_RepoGC.

(** The type of the request value and of the response variable that the
    handlers pass with each method. *)
Definition Args (m : rpcMethod) : Type :=
  match m with
  | Cluster_PeerAdd => peer_ID
  | Cluster_Unpin => Pin
  | Cluster_UnpinPath => PinPath
  | Cluster_PinGet | Cluster_StatusLocal | Cluster_Status
  | Cluster_RecoverLocal | Cluster_Recover => Cid
  | Cluster_StatusAllLocal | Cluster_StatusAll => TrackerStatus
  | Cluster_Pins | Cluster_RecoverAllLocal | Cluster_RecoverAll
  | Cluster_RepoGCLocal | Cluster_RepoGC => unit
  end.

Definition Reply (m : rpcMethod) : Type :=
  match m with
  | Cluster_PeerAdd => ID
  | Cluster_Unpin | Cluster_UnpinPath | Cluster_PinGet => Pin
  | Cluster_Pins => list Pin
  | Cluster_StatusAllLocal | Cluster_RecoverAllLocal => list PinInfo
  | Cluster_StatusAll | Cluster_RecoverAll => list (option GlobalPinInfo)
  | Cluster_StatusLocal | Cluster_RecoverLocal => PinInfo
  | Cluster_Status | Cluster_Recover => GlobalPinInfo
  | Cluster_RepoGCLocal => RepoGC
  | Cluster_RepoGC => GlobalRepoGC
  end.

(** The server behind [rpcClient]: for a method and a request, the value
    of the response variable after the call and the error returned. *)
Definition Backend := ∀ m : rpcMethod, Args m → Reply m * option error.

(** What a handler does, in order. *)
Inductive Event :=
| RPC (m : rpcMethod) (req : Args m)
| Response (status : Z) (err : option error) (resp : option Body).

Definition isRPC (e : Event) : bool :=
  match e with RPC _ _ => true | Response _ _ _ => false end.

(** The number of remote calls in a trace, and their methods. *)
Definition rpcCalls (t : list Event) : nat := length (List.filter isRPC t).

Fixpoint calledMethods (t : list Event) : list rpcMethod :=
  match t with
  | [] => []
  | RPC m _ :: rest => m :: calledMethods rest
  | Response _ _ _ :: rest => calledMethods rest
  end.

(** ** The handler monad *)

Definition Handler (A : Type) : Type := Backend → list Event * A.

Global Instance Handler_ret : MRet Handler := λ A a _, ([], a).

Global Instance Handler_bind : MBind Handler := λ A B k m rpc,
  let '(t1, a) := m rpc in
  let '(t2, b) := k a rpc in
  (t1 ++ t2, b).

(** [api.rpcClient.CallContext(r.Context(), "", "Cluster", m, req, &resp)]. *)
Definition CallContext (m : rpcMethod) (req : Args m) : Handler (Reply m * option error) :=
  λ rpc, ([RPC m req], rpc m req).

(** [api.SendResponse(w, status, err, resp)]. *)
Definition SendResponse (status : Z) (err : option error) (resp : option Body) : Handler unit :=
  λ _, ([Response status err resp], tt).

(** The trace of a handler run against a server. *)
Definition serve (h : Handler unit) (rpc : Backend) : list Event := fst (h rpc).

(** [*http.Request]: the query, what the path and query decode to, and the body. *)
Record Request := { URL_Query : Values; URL_Path : string; Request_Body : string }.

(** The response as written to the client. *)
Inductive Payload :=
| JSONError (msg : string)
| JSONBody (b : Body)
| NoBody.

Record HTTPResponse := { StatusCode : Z; Content : Payload }.

(** The routes whose handlers are embedded below. *)
Inductive Route :=
| PeerAdd | Unpin | UnpinPath | Allocations | Allocation
| StatusAll | Status | RecoverAll | Recover | RepoGCRoute.

(** ** The type filter of the allocations listing *)

(** Lines 450 to 459 of [allocationsHandler]: the filter string is split
    on commas, every token is looked up and OR-ed into [filter], which
    starts as the zero value; the request is refused when the composed
    mask is [BadType]. *)
Definition composeTypeFilter (filterStr : string) : PinType :=
  fold_left (λ filter f, N.lor filter (PinTypeFromString f))
            (strings_Split filterStr ",") 0%N.

Definition ParseTypeFilter (filterStr : string) : PinType + error :=
  let filter := composeTypeFilter filterStr in
  if (filter =? BadType)%N then inr "invalid filter value" else inl filter.

(** Lines 471 to 483 of [allocationsHandler]: with [AllType] the pins
    are passed on as they are; otherwise the pins are scanned in order
    and those with [filter&pin.Type > 0] are appended to a fresh slice. *)
Definition applyTypeFilter (filter : PinType) (pins : list Pin) : list Pin :=
  if (filter =? AllType)%N then pins
  else fold_left (λ outPins pin,
                    if (0 <? N.land filter (Type_ pin))%N
                    then outPins ++ [pin] else outPins)
                 pins [].

(** ** A status-filter table for examples *)

(** Modelled from the spec: [types.TrackerStatusFromString] and
    [types.TrackerStatusUndefined] are declared in package [api], which
    is not among the sources.  The spec describes the status filter as a
    bit mask over the tracker states queued, pinning, pinned, error,
    unpinned and others, parsed from a comma-separated string in the
    same way as the type filter, the empty string giving the undefined
    mask.  The handlers below take the parser as a parameter; this
    instance serves as an example of one. *)
Definition exampleTrackerStatusUndefined : TrackerStatus := 0%Z.

Definition exampleTrackerStatusOfToken (tok : string) : TrackerStatus :=
  if String.eqb tok "queued" then 1%Z
  else if String.eqb tok "pinning" then 2%Z
  else if String.eqb tok "pinned" then 4%Z
  else if String.eqb tok "error" then 8%Z
  else if String.eqb tok "unpinned" then 16%Z
  else exampleTrackerStatusUndefined.

Definition exampleTrackerStatusFromString (str : string) : TrackerStatus :=
  fold_left (λ status tok, Z.lor status (exampleTrackerStatusOfToken tok))
            (strings_Split str ",") 0%Z.

(** ** Servers and requests for examples *)

(** The zero value of each response variable. *)
Definition zeroPin : Pin := {| Pin_Cid := ""; Type_ := 0%N |}.
Definition zeroPinInfo : PinInfo :=
  {| PinInfo_Cid := ""; PinInfo_Peer := ""; PinInfo_Status := 0%Z |}.

Definition zeroReply (m : rpcMethod) : Reply m :=
  match m with
  | Cluster_PeerAdd => {| ID_ID := "" |}
  | Cluster_Unpin | Cluster_UnpinPath | Cluster_PinGet => zeroPin
  | Cluster_Pins => []
  | Cluster_StatusAllLocal | Cluster_RecoverAllLocal => []
  | Cluster_StatusAll | Cluster_RecoverAll => []
  | Cluster_StatusLocal | Cluster_RecoverLocal => zeroPinInfo
  | Cluster_Status | Cluster_Recover =>
      {| GlobalPinInfo_Cid := ""; GlobalPinInfo_PeerMap := ∅ |}
  | Cluster_RepoGCLocal => {| RepoGC_Peer := ""; RepoGC_Keys := []; RepoGC_Error := "" |}
  | Cluster_RepoGC => {| PeerMap := ∅ |}
  end.

(** A server on which every call fails with the error [e], leaving the
    response variable untouched. *)
Definition failingBackend (e : error) : Backend := λ m _, (zeroReply m, Some e).

(** A server on which every call succeeds; "Pins" returns [pins] and
    "RepoGC" returns [gc]. *)
Definition exampleBackend (pins : list Pin) (gc : GlobalRepoGC) : Backend :=
  λ m,
    match m return Args m → Reply m * option error with
    | Cluster_Pins => λ _, (pins, None)
    | Cluster_RepoGC => λ _, (gc, None)
    | m' => λ _, (zeroReply m', None)
    end.


Definition exampleRequest (query : Values) : Request :=
  {| URL_Query := query; URL_Path := ""; Request_Body := "" |}.

(** Decoders for examples: a body is decoded when it is not empty, and
    then holds the peer identifier itself; a peer identifier and a
    content identifier are decoded when they are not empty; the content
    identifier and the path reference are those of the request path. *)
Definition exampleJSONDecode (body : string) : option peerAddBody :=
  if String.eqb body "" then None else Some {| PeerID := body |}.

Definition examplePeerDecode (s : string) : option peer_ID :=
  if String.eqb s "" then None else Some s.

Definition exampleDecodeCid (r : Request) : Pin + error :=
  if String.eqb (URL_Path r) "" then inr "error decoding Cid"
  else inl {| Pin_Cid := URL_Path r; Type_ := DataType |}.

Definition exampleDecodePinPath (r : Request) : PinPath + error :=
  if String.eqb (URL_Path r) "" then inr "error parsing path"
  else inl {| Path := URL_Path r |}.

Definition examplePathRequest (path : string) (query : Values) : Request :=
  {| URL_Query := query; URL_Path := path; Request_Body := "" |}.

(** ** Notions used to state the properties *)

(** A token of a comma-separated string holds no comma. *)
Fixpoint commaFree (s : string) : bool :=
  match s with
  | EmptyString => true
  | String c rest => negb (Ascii.eqb c ",") && commaFree rest
  end.

(** ASCII lower-casing, to compare error texts up to their casing. *)
Definition lowerAscii (c : ascii) : ascii :=
  let n := N_of_ascii c in
  if ((65 <=? n) && (n <=? 90))%N then ascii_of_N (n + 32) else c.

Fixpoint strings_ToLower (s : string) : string :=
  match s with
  | EmptyString => EmptyString
  | String c rest => String (lowerAscii c) (strings_ToLower rest)
  end.

(** The node-scoped and the cluster-wide method of the routes that
    offer the choice. *)
Definition localGlobalMethods (route : Route) : option (rpcMethod * rpcMethod) :=
  match route with
  | StatusAll => Some (Cluster_StatusAllLocal, Cluster_StatusAll)
  | Status => Some (Cluster_StatusLocal, Cluster_Status)
  | RecoverAll => Some (Cluster_RecoverAllLocal, Cluster_RecoverAll)
  | Recover => Some (Cluster_RecoverLocal, Cluster_Recover)
  | RepoGCRoute => Some (Cluster_RepoGCLocal, Cluster_RepoGC)
  | _ => None
  end.

(** The status filters sent with the status-all calls of a trace. *)
Definition statusFilterOf (ev : Event) : option TrackerStatus :=
  match ev with
  | RPC m req =>
      match m return Args m → option TrackerStatus with
      | Cluster_StatusAllLocal | Cluster_StatusAll => λ filter, Some filter
      | _ => λ _, None
      end req
  | Response _ _ _ => None
  end.

Definition statusFiltersSent (t : list Event) : list TrackerStatus :=
  omap statusFilterOf t.


(** How the handlers use the status argument of [SendResponse]: an
    explicit status is 400 or 404 and comes with an error and no
    response value; under the automatic status a response without error
    carries a response value. *)
Definition responseDiscipline (ev : Event) : bool :=
  match ev with
  | RPC _ _ => true
  | Response status err resp =>
      if (status =? SetStatusAutomatically)%Z
      then match err, resp with
           | None, None => false
           | _, _ => true
           end
      else ((status =? StatusBadRequest)%Z || (status =? StatusNotFound)%Z)
           && match err, resp with
              | Some _, None => true
              | _, _ => false
              end
  end.

Section RestAPI.

(** Functions of other packages, which the handlers call. *)

(** [json.NewDecoder(r.Body).Decode(&addInfo)]: [None] on a decoding error. *)
Variable json_Decode : string → option peerAddBody.
(** [peer.Decode] and [peer.Encode] of go-libp2p. *)
Variable peer_Decode : string → option peer_ID.
Variable peer_Encode : peer_ID → string.
(** The decoding of the content identifier and of the path reference of
    a request, with the error reported when it fails. *)
Variable decodeCid : Request → Pin + error.
Variable decodePinPath : Request → PinPath + error.
(** [types.TrackerStatusFromString] and [types.TrackerStatusUndefined]. *)
Variable TrackerStatusFromString : string → TrackerStatus.
Variable TrackerStatusUndefined : TrackerStatus.
(** [state.ErrNotFound.Error()]. *)
Variable ErrNotFound : error.
(** The status that the automatic policy derives from an error. *)
Variable errorStatus : error → Z.

(** Modelled from the spec: [common.API.SendResponse] writes the
    response and is not among the sources.  Under the automatic policy a
    success is answered 200 with the result as JSON body and a failure
    with a status derived from the error; an explicit status is used as
    given; every failure carries a JSON error object with the message of
    the error. *)
Definition Shape (status : Z) (err : option error) (resp : option Body) : HTTPResponse :=
  match err with
  | Some e =>
      {| StatusCode := if (status =? SetStatusAutomatically)%Z then errorStatus e else status;
         Content := JSONError e |}
  | None =>
      {| StatusCode := if (status =? SetStatusAutomatically)%Z then StatusOK else status;
         Content := match resp with Some b => JSONBody b | None => NoBody end |}
  end.

(** The responses written during a trace. *)
Fixpoint written (t : list Event) : list HTTPResponse :=
  match t with
  | [] => []
  | RPC _ _ :: rest => written rest
  | Response status err resp :: rest => Shape status err resp :: written rest
  end.

(** Modelled from the spec: [common.API.ParseCidOrFail] and
    [common.API.ParsePinPathOrFail] are not among the sources.  They
    decode the identifier of the request; when it is malformed they
    answer 400 themselves and return [nil], and no remote call is made. *)
Definition ParseCidOrFail (r : Request) : Handler (option Pin) :=
  match decodeCid r with
  | inl pin => mret (Some pin)
  | inr e => SendResponse StatusBadRequest (Some e) None;; mret None
  end.

Definition ParsePinPathOrFail (r : Request) : Handler (option PinPath) :=
  match decodePinPath r with
  | inl pinpath => mret (Some pinpath)
  | inr e => SendResponse StatusBadRequest (Some e) None;; mret None
  end.

(** Modelled from the spec: the method [ToGlobal] of [PinInfo] is declared in package
    [api], which is not among the sources.  It builds the one-entry
    global form of a local result, keyed by the peer the result carries. *)
Definition ToGlobal (pi : PinInfo) : GlobalPinInfo :=
  {| GlobalPinInfo_Cid := PinInfo_Cid pi;
     GlobalPinInfo_PeerMap := {[ peer_Encode (PinInfo_Peer pi) := pi ]} |}.

(** [err != nil && err.Error() == state.ErrNotFound.Error()]. *)
Definition isErrNotFound (err : option error) : bool :=
  match err with
  | Some e => String.eqb e ErrNotFound
  | None => false
  end.

(** ** Local to global *)

Definition repoGCToGlobal (r : RepoGC) : GlobalRepoGC :=
  {| PeerMap := {[ peer_Encode (RepoGC_Peer r) := r ]} |}.

(** The loop of [pinInfosToGlobal]: [gPInfos[i] = p.ToGlobal()] for the
    entries of [pInfos] from index [i] on. *)
Fixpoint pinInfosToGlobal_range (i : nat) (pInfos : list PinInfo)
    (gPInfos : list (option GlobalPinInfo)) : list (option GlobalPinInfo) :=
  match pInfos with
  | [] => gPInfos
  | p :: rest => pinInfosToGlobal_range (S i) rest (<[i := Some (ToGlobal p)]> gPInfos)
  end.

Definition pinInfosToGlobal (pInfos : list PinInfo) : list (option GlobalPinInfo) :=
  pinInfosToGlobal_range 0 pInfos (replicate (length pInfos) None).

(** ** The handlers *)

Definition peerAddHandler (r : Request) : Handler unit :=
  match json_Decode (Request_Body r) with
  | None =>
      SendResponse StatusBadRequest (Some "error decoding request body") None
  | Some addInfo =>
      match peer_Decode (PeerID addInfo) with
      | None =>
          SendResponse StatusBadRequest (Some "error decoding peer_id") None
      | Some pid =>
          '(id, err) ← CallContext Cluster_PeerAdd pid;
          SendResponse SetStatusAutomatically err (Some (BID id))
      end
  end.

Definition unpinHandler (r : Request) : Handler unit :=
  pin ← ParseCidOrFail r;
  match pin with
  | Some pin =>
      '(pinObj, err) ← CallContext Cluster_Unpin pin;
      if isErrNotFound err
      then SendResponse StatusNotFound err None
      else SendResponse SetStatusAutomatically err (Some (BPin pinObj))
  | None => mret tt
  end.

Definition unpinPathHandler (r : Request) : Handler unit :=
  pinpath ← ParsePinPathOrFail r;
  match pinpath with
  | Some pinpath =>
      '(pin, err) ← CallContext Cluster_UnpinPath pinpath;
      if isErrNotFound err
      then SendResponse StatusNotFound err None
      else SendResponse SetStatusAutomatically err (Some (BPin pin))
  | None => mret tt
  end.

Definition allocationsHandler (r : Request) : Handler unit :=
  let queryValues := URL_Query r in
  let filterStr := Values_Get queryValues "filter" in
  match ParseTypeFilter filterStr with
  | inr e => SendResponse StatusBadRequest (Some e) None
  | inl filter =>
      '(pins, err) ← CallContext Cluster_Pins tt;
      let outPins := applyTypeFilter filter pins in
      SendResponse SetStatusAutomatically err (Some (BPins outPins))
  end.

Definition allocationHandler (r : Request) : Handler unit :=
  pin ← ParseCidOrFail r;
  match pin with
  | Some pin =>
      '(pinResp, err) ← CallContext Cluster_PinGet (Pin_Cid pin);
      match err with
      | Some _ => SendResponse StatusNotFound err None
      | None => SendResponse SetStatusAutomatically None (Some (BPin pinResp))
      end
  | None => mret tt
  end.

Definition statusAllHandler (r : Request) : Handler unit :=
  let queryValues := URL_Query r in
  let local := Values_Get queryValues "local" in
  let filterStr := Values_Get queryValues "filter" in
  let filter := TrackerStatusFromString filterStr in
  if (filter =? TrackerStatusUndefined)%Z && negb (String.eqb filterStr "")
  then SendResponse StatusBadRequest (Some "invalid filter value") None
  else if String.eqb local "true" then
    '(pinInfos, err) ← CallContext Cluster_StatusAllLocal filter;
    match err with
    | Some _ => SendResponse SetStatusAutomatically err None
    | None =>
        SendResponse SetStatusAutomatically None
                     (Some (BGlobalPinInfos (pinInfosToGlobal pinInfos)))
    end
  else
    '(globalPinInfos, err) ← CallContext Cluster_StatusAll filter;
    match err with
    | Some _ => SendResponse SetStatusAutomatically err None
    | None =>
        SendResponse SetStatusAutomatically None (Some (BGlobalPinInfos globalPinInfos))
    end.

Definition statusHandler (r : Request) : Handler unit :=
  let queryValues := URL_Query r in
  let local := Values_Get queryValues "local" in
  pin ← ParseCidOrFail r;
  match pin with
  | Some pin =>
      if String.eqb local "true" then
        '(pinInfo, err) ← CallContext Cluster_StatusLocal (Pin_Cid pin);
        SendResponse SetStatusAutomatically err (Some (BGlobalPinInfo (ToGlobal pinInfo)))
      else
        '(pinInfo, err) ← CallContext Cluster_Status (Pin_Cid pin);
        SendResponse SetStatusAutomatically err (Some (BGlobalPinInfo pinInfo))
  | None => mret tt
  end.

Definition recoverAllHandler (r : Request) : Handler unit :=
  let queryValues := URL_Query r in
  let local := Values_Get queryValues "local" in
  if String.eqb local "true" then
    '(pinInfos, err) ← CallContext Cluster_RecoverAllLocal tt;
    SendResponse SetStatusAutomatically err
                 (Some (BGlobalPinInfos (pinInfosToGlobal pinInfos)))
  else
    '(globalPinInfos, err) ← CallContext Cluster_RecoverAll tt;
    SendResponse SetStatusAutomatically err (Some (BGlobalPinInfos globalPinInfos)).

Definition recoverHandler (r : Request) : Handler unit :=
  let queryValues := URL_Query r in
  let local := Values_Get queryValues "local" in
  pin ← ParseCidOrFail r;
  match pin with
  | Some pin =>
      if String.eqb local "true" then
        '(pinInfo, err) ← CallContext Cluster_RecoverLocal (Pin_Cid pin);
        SendResponse SetStatusAutomatically err (Some (BGlobalPinInfo (ToGlobal pinInfo)))
      else
        '(pinInfo, err) ← CallContext Cluster_Recover (Pin_Cid pin);
        SendResponse SetStatusAutomatically err (Some (BGlobalPinInfo pinInfo))
  | None => mret tt
  end.

Definition repoGCHandler (r : Request) : Handler unit :=
  let queryValues := URL_Query r in
  let local := Values_Get queryValues "local" in
  if String.eqb local "true" then
    '(localRepoGC, err) ← CallContext Cluster_RepoGCLocal tt;
    SendResponse SetStatusAutomatically err (Some (BGlobalRepoGC (repoGCToGlobal localRepoGC)))
  else
    '(repoGC, err) ← CallContext Cluster_RepoGC tt;
    SendResponse SetStatusAutomatically err (Some (BGlobalRepoGC repoGC)).

(** The handler of each route, as registered in [routes]. *)
Definition HandlerFunc (route : Route) : Request → Handler unit :=
  match route with
  | PeerAdd => peerAddHandler
  | Unpin => unpinHandler
  | UnpinPath => unpinPathHandler
  | Allocations => allocationsHandler
  | Allocation => allocationHandler
  | StatusAll => statusAllHandler
  | Status => statusHandler
  | RecoverAll => recoverAllHandler
  | Recover => recoverHandler
  | RepoGCRoute => repoGCHandler
  end.


(** ** Notions used to state the properties of the handlers *)

(** The parameters of a request fail validation: the body of a peer
    addition is no JSON or carries an undecodable peer identifier, the
    type filter of the allocations listing is refused, or the status
    filter is a non-empty string that parses to the undefined mask. *)
Inductive InvalidParams : Route → Request → Prop :=
| InvalidPeerAddBody r :
    json_Decode (Request_Body r) = None → InvalidParams PeerAdd r
| InvalidPeerAddPeerID r addInfo :
    json_Decode (Request_Body r) = Some addInfo →
    peer_Decode (PeerID addInfo) = None → InvalidParams PeerAdd r
| InvalidTypeFilter r e :
    ParseTypeFilter (Values_Get (URL_Query r) "filter") = inr e →
    InvalidParams Allocations r
| InvalidStatusFilter r :
    Values_Get (URL_Query r) "filter" ≠ "" →
    TrackerStatusFromString (Values_Get (URL_Query r) "filter") = TrackerStatusUndefined →
    InvalidParams StatusAll r.

(** The remote call of an unpin request fails with the error [e]. *)
Inductive UnpinFails (rpc : Backend) (e : error) : Route → Request → Prop :=
| UnpinFails_cid r pin :
    decodeCid r = inl pin → (rpc Cluster_Unpin pin).2 = Some e →
    UnpinFails rpc e Unpin r
| UnpinFails_path r pinpath :
    decodePinPath r = inl pinpath → (rpc Cluster_UnpinPath pinpath).2 = Some e →
    UnpinFails rpc e UnpinPath r.

(** The parameters of a request of a route with a local variant pass
    validation. *)
Definition paramsAccepted (route : Route) (r : Request) : Prop :=
  match route with
  | Status | Recover => ∃ pin, decodeCid r = inl pin
  | StatusAll =>
      let filterStr := Values_Get (URL_Query r) "filter" in
      TrackerStatusFromString filterStr = TrackerStatusUndefined → filterStr = ""
  | _ => True
  end.

(** The identifier of the request, for the routes that carry one in
    their path, is decoded. *)
Definition identifierDecodes (route : Route) (r : Request) : Prop :=
  match route with
  | Unpin | Allocation | Status | Recover => ∃ pin, decodeCid r = inl pin
  | UnpinPath => ∃ pinpath, decodePinPath r = inl pinpath
  | _ => True
  end.

(** * Properties *)

(** ** The type filter *)

Lemma strings_Split_nonempty (s : string) (sep : ascii) : strings_Split s sep ≠ [].
Proof.
  destruct s as [|c rest]; simpl; [discriminate|].
  destruct (Ascii.eqb c sep); [discriminate|].
  destruct (strings_Split rest sep); discriminate.
Qed.

Lemma applyTypeFilter_loop (filter : PinType) (pins acc : list Pin) :
  fold_left (λ outPins pin,
               if (0 <? N.land filter (Type_ pin))%N then outPins ++ [pin] else outPins)
            pins acc
  = acc ++ List.filter (λ pin, negb (N.land filter (Type_ pin) =? 0)%N) pins.
Proof.
  revert acc. induction pins as [|p pins IH]; intros acc; simpl.
  - by rewrite app_nil_r.
  - rewrite IH. destruct (N.land filter (Type_ p)); simpl; [done|].
    by rewrite <- app_assoc.
Qed.

(** C3. With the mask [AllType] the type filter returns the pin list
    unchanged; with any other mask it returns, in the order of the list,
    exactly the pins whose type has a non-zero bitwise AND with the
    mask, so the output is never longer than the input. *)
Theorem applyTypeFilter_spec (L : list Pin) (M : PinType) :
  applyTypeFilter M L =
    (if (M =? AllType)%N then L
     else List.filter (λ pin, negb (N.land M (Type_ pin) =? 0)%N) L)
  ∧ (length (applyTypeFilter M L) ≤ length L)%nat.
Proof.
  unfold applyTypeFilter. destruct (M =? AllType)%N.
  - split; [reflexivity|lia].
  - rewrite applyTypeFilter_loop. simpl. split; [reflexivity|].
    apply List.filter_length_le.
Qed.

(** The example of the spec: the filter "data,meta" applied to pins of
    types data, meta and shard keeps the first two, in order. *)
Example applyTypeFilter_data_meta :
  ∃ M, ParseTypeFilter "data,meta" = inl M ∧
       applyTypeFilter M [ {| Pin_Cid := "a"; Type_ := DataType |};
                           {| Pin_Cid := "b"; Type_ := ShardType |};
                           {| Pin_Cid := "c"; Type_ := MetaType |} ]
       = [ {| Pin_Cid := "a"; Type_ := DataType |};
           {| Pin_Cid := "c"; Type_ := MetaType |} ].
Proof. eexists. split; reflexivity. Qed.

Lemma PinTypeFromString_range (tok : string) :
  In (PinTypeFromString tok) [1; 2; 4; 8; 16; 30]%N.
Proof.
  unfold PinTypeFromString.
  repeat (destruct (String.eqb tok _); [vm_compute; tauto|]).
  vm_compute; tauto.
Qed.

Lemma lor_eq_BadType (a : N) (tok : string) :
  N.lor a (PinTypeFromString tok) = BadType
  ↔ (a = 0%N ∨ a = BadType) ∧ PinTypeFromString tok = BadType.
Proof.
  pose proof (PinTypeFromString_range tok) as Hr. simpl in Hr.
  unfold BadType.
  destruct Hr as [<-|[<-|[<-|[<-|[<-|[<-|[]]]]]]];
    destruct a as [|[p|p|]]; simpl; split;
    try (intros [[?|?] ?]); try intros ?; try discriminate; auto.
Qed.

Lemma composeTypeFilter_loop_bad (toks : list string) (a : N) :
  fold_left (λ filter f, N.lor filter (PinTypeFromString f)) toks a = BadType
  ↔ forallb (λ tok, (PinTypeFromString tok =? BadType)%N) toks = true
    ∧ (a = BadType ∨ (a = 0%N ∧ toks ≠ [])).
Proof.
  revert a. induction toks as [|tok toks IH]; intros a; simpl.
  - split; [intros ->; auto|]. intros [_ [?|[_ ?]]]; [assumption|congruence].
  - rewrite IH, andb_true_iff, N.eqb_eq. split.
    + intros [Hall [Hb|[H0 _]]].
      * apply lor_eq_BadType in Hb as [Ha Ht].
        split; [auto|]. destruct Ha; [right; split; [assumption|discriminate]|auto].
      * apply N.lor_eq_0_iff in H0 as [_ H0].
        pose proof (PinTypeFromString_range tok) as Hr. rewrite H0 in Hr.
        simpl in Hr. exfalso. intuition discriminate.
    + intros [[Ht Hall] Ha]. split; [assumption|]. left.
      apply lor_eq_BadType. split; [|assumption].
      destruct Ha as [?|[? _]]; auto.
Qed.

Lemma fold_lor_map (toks : list string) (a : N) :
  fold_left (λ filter f, N.lor filter (PinTypeFromString f)) toks a
  = fold_left N.lor (map PinTypeFromString toks) a.
Proof. revert a. induction toks as [|t toks IH]; intros a; simpl; [done|apply IH]. Qed.

(** C5, as amended.  [ParseTypeFilter] splits its input on commas, looks
    up each token and ORs the results; it returns the invalid-input
    error exactly when the composed mask equals [BadType], which is when
    every token is unrecognised; a string that mixes unrecognised and
    recognised tokens is accepted, with the bits of both.  The empty
    string yields the mask [AllType] and no error. *)
Theorem ParseTypeFilter_spec (s : string) :
  ParseTypeFilter s =
    (if forallb (λ tok, (PinTypeFromString tok =? BadType)%N) (strings_Split s ",")
     then inr "invalid filter value"
     else inl (fold_left N.lor (map PinTypeFromString (strings_Split s ",")) 0%N))
  ∧ ParseTypeFilter "" = inl AllType.
Proof.
  split; [|reflexivity].
  unfold ParseTypeFilter, composeTypeFilter.
  pose proof (composeTypeFilter_loop_bad (strings_Split s ",") 0%N) as Hbad.
  pose proof (strings_Split_nonempty s ",") as Hne.
  rewrite <- fold_lor_map.
  destruct (forallb _ (strings_Split s ",")).
  - replace (fold_left _ _ _) with BadType; [reflexivity|].
    symmetry. apply Hbad. auto.
  - destruct (N.eqb_spec
                (fold_left (λ filter f, N.lor filter (PinTypeFromString f))
                           (strings_Split s ",") 0%N) BadType) as [Heq|Hneq];
      [|reflexivity].
    apply Hbad in Heq as [? _]. discriminate.
Qed.

(** ** Invariance of the composed mask *)

Lemma composeTypeFilter_loop_testbit (toks : list string) (a n : N) :
  N.testbit (fold_left (λ filter f, N.lor filter (PinTypeFromString f)) toks a) n
  = N.testbit a n || existsb (λ tok, N.testbit (PinTypeFromString tok) n) toks.
Proof.
  revert a. induction toks as [|tok toks IH]; intros a; simpl.
  - by rewrite orb_false_r.
  - by rewrite IH, N.lor_spec, orb_assoc.
Qed.

Lemma existsb_same_elements {A} (f : A → bool) (l1 l2 : list A) :
  (∀ x, In x l1 ↔ In x l2) → existsb f l1 = existsb f l2.
Proof.
  intros Hin. apply eq_true_iff_eq. rewrite !existsb_exists.
  split; intros (x & Hx & Hf); exists x; split; try assumption; by apply Hin.
Qed.

Lemma composeTypeFilter_loop_same_tokens (toks1 toks2 : list string) (a : N) :
  (∀ tok, In tok toks1 ↔ In tok toks2) →
  fold_left (λ filter f, N.lor filter (PinTypeFromString f)) toks1 a
  = fold_left (λ filter f, N.lor filter (PinTypeFromString f)) toks2 a.
Proof.
  intros Hin. apply N.bits_inj. intros n.
  rewrite !composeTypeFilter_loop_testbit. f_equal.
  by apply existsb_same_elements.
Qed.

Lemma string_app_nil_r (s : string) : String.append s "" = s.
Proof.
  induction s as [|c s IH]; [reflexivity|].
  change (String c (String.append s "") = String c s). by rewrite IH.
Qed.

Lemma strings_Split_app (tok s : string) :
  commaFree tok = true →
  strings_Split (String.append tok s) ","
  = match strings_Split s "," with
    | first :: toks => String.append tok first :: toks
    | [] => [tok]
    end.
Proof.
  intros Hfree. induction tok as [|c tok IH].
  - change (String.append "" s) with s.
    destruct (strings_Split s ",") eqn:E; [|reflexivity].
    by apply strings_Split_nonempty in E.
  - simpl in Hfree. apply andb_true_iff in Hfree as [Hc Hfree].
    apply negb_true_iff in Hc.
    change (String.append (String c tok) s) with (String c (String.append tok s)).
    simpl strings_Split. rewrite Hc, (IH Hfree).
    destruct (strings_Split s ","); reflexivity.
Qed.

(** Splitting the comma-joined tokens gives the tokens back. *)
Lemma strings_Split_concat (toks : list string) :
  toks ≠ [] → Forall (λ tok, commaFree tok = true) toks →
  strings_Split (String.concat "," toks) "," = toks.
Proof.
  intros Hne Hfree. induction Hfree as [|tok toks Htok Hfree IH]; [done|].
  destruct toks as [|tok' toks].
  - change (String.concat "," [tok]) with tok.
    pose proof (strings_Split_app tok "" Htok) as Happ.
    simpl in Happ. by rewrite !string_app_nil_r in Happ.
  - change (String.concat "," (tok :: tok' :: toks))
      with (String.append tok (String "," (String.concat "," (tok' :: toks)))).
    rewrite strings_Split_app by assumption.
    change (strings_Split (String "," (String.concat "," (tok' :: toks))) ",")
      with ("" :: strings_Split (String.concat "," (tok' :: toks)) ",").
    rewrite IH by discriminate. by rewrite string_app_nil_r.
Qed.

Lemma valid_token_commaFree (tok : string) :
  PinTypeFromString tok ≠ BadType → commaFree tok = true.
Proof.
  unfold PinTypeFromString.
  repeat match goal with
         | |- context [String.eqb tok ?t] =>
             destruct (String.eqb_spec tok t) as [->|_]; [reflexivity|]
         end.
  intros Hbad. by destruct Hbad.
Qed.

(** C8. For filter strings made of valid tokens only, the mask computed
    by [ParseTypeFilter] depends on the set of tokens alone: two strings
    with the same tokens, in any order and with any repetitions, give
    the same result. *)
Theorem ParseTypeFilter_reorder_duplicate (toks1 toks2 : list string) :
  Forall (λ tok, PinTypeFromString tok ≠ BadType) toks1 →
  Forall (λ tok, PinTypeFromString tok ≠ BadType) toks2 →
  (∀ tok, In tok toks1 ↔ In tok toks2) →
  ParseTypeFilter (String.concat "," toks1) = ParseTypeFilter (String.concat "," toks2).
Proof.
  intros Hv1 Hv2 Hin.
  destruct toks1 as [|t1 toks1], toks2 as [|t2 toks2]; [reflexivity| | |].
  - exfalso. apply (Hin t2). by left.
  - exfalso. apply (Hin t1). by left.
  - assert (Hf1 : Forall (λ tok, commaFree tok = true) (t1 :: toks1))
      by (eapply Forall_impl; [exact Hv1|intros; by apply valid_token_commaFree]).
    assert (Hf2 : Forall (λ tok, commaFree tok = true) (t2 :: toks2))
      by (eapply Forall_impl; [exact Hv2|intros; by apply valid_token_commaFree]).
    unfold ParseTypeFilter, composeTypeFilter.
    rewrite (strings_Split_concat (t1 :: toks1)) by (discriminate || assumption).
    rewrite (strings_Split_concat (t2 :: toks2)) by (discriminate || assumption).
    by rewrite (composeTypeFilter_loop_same_tokens _ _ _ Hin).
Qed.

(** ** The handlers *)

Ltac run_handler :=
  unfold serve, HandlerFunc,
    peerAddHandler, unpinHandler, unpinPathHandler, allocationsHandler,
    allocationHandler, statusAllHandler, statusHandler, recoverAllHandler,
    recoverHandler, repoGCHandler, ParseCidOrFail, ParsePinPathOrFail,
    CallContext, SendResponse, mbind, mret, Handler_bind, Handler_ret;
  cbn beta iota.

(** C1. When the validation of the parameters fails (the body of a peer
    addition is no JSON or carries an undecodable peer identifier, or
    the type or status filter is refused), the handler does one thing
    only: it sends a response with status 400; it issues no remote call. *)
Theorem invalid_params_no_remote_call (route : Route) (r : Request) (rpc : Backend) :
  InvalidParams route r →
  ∃ msg,
    serve (HandlerFunc route r) rpc = [Response StatusBadRequest (Some msg) None]
    ∧ written (serve (HandlerFunc route r) rpc)
      = [{| StatusCode := StatusBadRequest; Content := JSONError msg |}]
    ∧ rpcCalls (serve (HandlerFunc route r) rpc) = 0.
Proof.
  intros Hinv.
  assert (∃ msg, serve (HandlerFunc route r) rpc
                 = [Response StatusBadRequest (Some msg) None]) as [msg Hserve].
  { destruct Hinv as [r Hjson|r addInfo Hjson Hpeer|r e Hfilter|r Hne Hundef];
      run_handler.
    - rewrite Hjson. by eexists.
    - rewrite Hjson, Hpeer. by eexists.
    - rewrite Hfilter. by eexists.
    - rewrite Hundef, Z.eqb_refl.
      apply String.eqb_neq in Hne. rewrite Hne. by eexists. }
  exists msg. rewrite Hserve. repeat split; reflexivity.
Qed.

(** C2, as amended.  For the unpin and unpin-by-path operations, when
    the remote call fails with an error whose text is exactly the text
    of the not-found sentinel, the response status is 404; an error
    with any other text, be it the sentinel in another casing or
    wording, is answered with the status of the automatic policy. *)
Theorem unpin_not_found_status (route : Route) (r : Request) (rpc : Backend) (e : error) :
  UnpinFails rpc e route r →
  written (serve (HandlerFunc route r) rpc)
  = [{| StatusCode := if String.eqb e ErrNotFound then StatusNotFound else errorStatus e;
        Content := JSONError e |}].
Proof.
  intros [r' pin Hcid Herr|r' pinpath Hpath Herr]; run_handler.
  - rewrite Hcid. cbn beta iota.
    destruct (rpc Cluster_Unpin pin) as [pinObj err]. simpl in Herr. subst err.
    simpl. by destruct (String.eqb e ErrNotFound).
  - rewrite Hpath. cbn beta iota.
    destruct (rpc Cluster_UnpinPath pinpath) as [pinObj err]. simpl in Herr. subst err.
    simpl. by destruct (String.eqb e ErrNotFound).
Qed.

(** C9. For the single-allocation query, every error of the remote call
    is answered with status 404; on success the error handed to
    [SendResponse] is nil and the response carries the pin record. *)
Theorem allocation_errors_are_not_found (r : Request) (rpc : Backend) (pin : Pin) :
  decodeCid r = inl pin →
  serve (allocationHandler r) rpc
  = [RPC Cluster_PinGet (Pin_Cid pin);
     match (rpc Cluster_PinGet (Pin_Cid pin)).2 with
     | Some e => Response StatusNotFound (Some e) None
     | None =>
         Response SetStatusAutomatically None
                  (Some (BPin (rpc Cluster_PinGet (Pin_Cid pin)).1))
     end]
  ∧ written (serve (allocationHandler r) rpc)
    = [match (rpc Cluster_PinGet (Pin_Cid pin)).2 with
       | Some e => {| StatusCode := StatusNotFound; Content := JSONError e |}
       | None =>
           {| StatusCode := StatusOK;
              Content := JSONBody (BPin (rpc Cluster_PinGet (Pin_Cid pin)).1) |}
       end].
Proof.
  intros Hcid. run_handler. rewrite Hcid. cbn beta iota.
  destruct (rpc Cluster_PinGet (Pin_Cid pin)) as [pinResp [e|]]; split; reflexivity.
Qed.

(** C4, as amended.  Of the two operations, only the allocations listing
    applies the type-filter mask: it does so after the remote call and
    before the response is shaped, and when the remote call fails the
    response is the error, whatever the filter.  The GC operation
    applies no type filter: it sends the result of its remote call,
    unified to the global shape in local mode, as it is. *)
Theorem type_filter_in_allocations_only (r : Request) (rpc : Backend) (M : PinType) :
  ParseTypeFilter (Values_Get (URL_Query r) "filter") = inl M →
  (serve (allocationsHandler r) rpc
   = [RPC Cluster_Pins tt;
      Response SetStatusAutomatically (rpc Cluster_Pins tt).2
               (Some (BPins (applyTypeFilter M (rpc Cluster_Pins tt).1)))]
   ∧ written (serve (allocationsHandler r) rpc)
     = [match (rpc Cluster_Pins tt).2 with
        | Some e => {| StatusCode := errorStatus e; Content := JSONError e |}
        | None =>
            {| StatusCode := StatusOK;
               Content := JSONBody (BPins (applyTypeFilter M (rpc Cluster_Pins tt).1)) |}
        end])
  ∧ serve (repoGCHandler r) rpc
    = (if String.eqb (Values_Get (URL_Query r) "local") "true"
       then [RPC Cluster_RepoGCLocal tt;
             Response SetStatusAutomatically (rpc Cluster_RepoGCLocal tt).2
                      (Some (BGlobalRepoGC (repoGCToGlobal (rpc Cluster_RepoGCLocal tt).1)))]
       else [RPC Cluster_RepoGC tt;
             Response SetStatusAutomatically (rpc Cluster_RepoGC tt).2
                      (Some (BGlobalRepoGC (rpc Cluster_RepoGC tt).1))]).
Proof.
  intros Hfilter. split.
  - run_handler. rewrite Hfilter. cbn beta iota.
    destruct (rpc Cluster_Pins tt) as [pins [e|]]; split; reflexivity.
  - run_handler. destruct (String.eqb _ "true").
    + by destruct (rpc Cluster_RepoGCLocal tt).
    + by destruct (rpc Cluster_RepoGC tt).
Qed.

(** C7. For the status filter of the status-all operation: with an
    empty filter string, which the parser turns into the undefined
    mask, the request is not refused and the mask is passed as it is to
    the one remote call; a non-empty string that parses to the undefined
    mask is answered with status 400 and no remote call is made. *)
Theorem status_filter_validation (r : Request) (rpc : Backend) :
  TrackerStatusFromString "" = TrackerStatusUndefined →
  (Values_Get (URL_Query r) "filter" = "" →
   statusFiltersSent (serve (statusAllHandler r) rpc) = [TrackerStatusUndefined]
   ∧ rpcCalls (serve (statusAllHandler r) rpc) = 1
   ∧ ∀ e resp, ¬ In (Response StatusBadRequest e resp) (serve (statusAllHandler r) rpc))
  ∧ (Values_Get (URL_Query r) "filter" ≠ "" →
     TrackerStatusFromString (Values_Get (URL_Query r) "filter") = TrackerStatusUndefined →
     serve (statusAllHandler r) rpc
     = [Response StatusBadRequest (Some "invalid filter value") None]
     ∧ written (serve (statusAllHandler r) rpc)
       = [{| StatusCode := StatusBadRequest; Content := JSONError "invalid filter value" |}]
     ∧ rpcCalls (serve (statusAllHandler r) rpc) = 0).
Proof.
  intros Hempty. split.
  - intros Hf. run_handler. rewrite Hf, Hempty, Z.eqb_refl. cbn.
    destruct (String.eqb _ "true").
    + destruct (rpc Cluster_StatusAllLocal TrackerStatusUndefined) as [pinInfos [e|]];
        (split; [reflexivity|split; [reflexivity|]]);
        intros e' resp [H|[H|[]]]; discriminate.
    + destruct (rpc Cluster_StatusAll TrackerStatusUndefined) as [gs [e|]];
        (split; [reflexivity|split; [reflexivity|]]);
        intros e' resp [H|[H|[]]]; discriminate.
  - intros Hne Hundef.
    assert (serve (statusAllHandler r) rpc
            = [Response StatusBadRequest (Some "invalid filter value") None]) as ->.
    { run_handler. rewrite Hundef, Z.eqb_refl.
      apply String.eqb_neq in Hne. by rewrite Hne. }
    repeat split; reflexivity.
Qed.

(** C10. For the status, status-all, recover, recover-all and GC
    operations, whose parameters pass validation, the one remote call
    goes to the node-scoped method when the query parameter "local" is
    exactly the string "true", and to the cluster-wide method for any
    other value or when the parameter is absent. *)
Theorem local_flag_selects_method (route : Route) (r : Request) (rpc : Backend)
    (localMethod globalMethod : rpcMethod) :
  localGlobalMethods route = Some (localMethod, globalMethod) →
  paramsAccepted route r →
  (Values_Get (URL_Query r) "local" = "true" →
   calledMethods (serve (HandlerFunc route r) rpc) = [localMethod])
  ∧ (Values_Get (URL_Query r) "local" ≠ "true" →
     calledMethods (serve (HandlerFunc route r) rpc) = [globalMethod])
  ∧ localMethod ≠ globalMethod.
Proof.
  intros Hm Hok.
  destruct route; simpl in Hm; try discriminate; injection Hm as <- <-;
    (split; [intros Hl|split; [intros Hl%String.eqb_neq|discriminate]]);
    run_handler; simpl in Hok.
  all: try match type of Hok with
         | ∃ _, _ => destruct Hok as [pin Hcid]; rewrite Hcid; cbn beta iota
         end.
  all: try match goal with
         | |- context [(?a =? ?b)%Z && negb (String.eqb ?s "")] =>
             destruct (Z.eqb_spec a b) as [Heq|Hneq];
             [rewrite (Hok Heq)|]; cbn [andb negb String.eqb]
         end.
  all: rewrite Hl; cbn [String.eqb Ascii.eqb Bool.eqb].
  all: repeat match goal with
         | |- context [?server ?m ?a] =>
             match type of server with
             | Backend => destruct (server m a) as [? [?|]]
             end
         end; reflexivity.
Qed.

(** ** Local to global *)

Lemma pinInfosToGlobal_range_spec (i : nat) (pInfos : list PinInfo)
    (gPInfos : list (option GlobalPinInfo)) :
  length gPInfos = (i + length pInfos)%nat →
  pinInfosToGlobal_range i pInfos gPInfos
  = take i gPInfos ++ map (λ p, Some (ToGlobal p)) pInfos.
Proof.
  revert i gPInfos. induction pInfos as [|p pInfos IH]; intros i gPInfos Hlen; simpl in *.
  - rewrite app_nil_r, take_ge; [reflexivity|lia].
  - rewrite IH by (rewrite length_insert; lia).
    rewrite (take_S_r _ _ (Some (ToGlobal p)))
      by (apply list_lookup_insert_eq; lia).
    rewrite take_insert_ge by lia. by rewrite <- app_assoc.
Qed.

Lemma pinInfosToGlobal_map (pInfos : list PinInfo) :
  pinInfosToGlobal pInfos = map (λ p, Some (ToGlobal p)) pInfos.
Proof.
  unfold pinInfosToGlobal.
  rewrite pinInfosToGlobal_range_spec by (rewrite length_replicate; lia).
  reflexivity.
Qed.


(** * Further properties *)

(** ** The type filter as an operation on pin lists *)

Lemma applyTypeFilter_filter (M : PinType) (L : list Pin) :
  applyTypeFilter M L
  = if (M =? AllType)%N then L
    else List.filter (λ pin, negb (N.land M (Type_ pin) =? 0)%N) L.
Proof.
  unfold applyTypeFilter. destruct (M =? AllType)%N; [reflexivity|].
  by rewrite applyTypeFilter_loop.
Qed.

Lemma List_filter_comm {A} (f g : A → bool) (l : list A) :
  List.filter f (List.filter g l) = List.filter g (List.filter f l).
Proof.
  induction l as [|x l IH]; simpl; [reflexivity|].
  destruct (f x) eqn:Hf, (g x) eqn:Hg; simpl; rewrite ?Hf, ?Hg, IH; reflexivity.
Qed.

Lemma List_filter_idemp {A} (f : A → bool) (l : list A) :
  List.filter f (List.filter f l) = List.filter f l.
Proof.
  induction l as [|x l IH]; simpl; [reflexivity|].
  destruct (f x) eqn:Hf; simpl; rewrite ?Hf, IH; reflexivity.
Qed.

(** X1. Filtering twice with the same mask gives what filtering once
    gives, and two masks can be applied in either order. *)
Theorem applyTypeFilter_idempotent_commutative (M1 M2 : PinType) (L : list Pin) :
  applyTypeFilter M1 (applyTypeFilter M1 L) = applyTypeFilter M1 L
  ∧ applyTypeFilter M1 (applyTypeFilter M2 L) = applyTypeFilter M2 (applyTypeFilter M1 L).
Proof.
  rewrite !applyTypeFilter_filter.
  destruct (M1 =? AllType)%N, (M2 =? AllType)%N; split;
    auto using List_filter_idemp, List_filter_comm.
Qed.

(** X2. The filter works pin by pin: the result for a concatenation of
    two lists is the concatenation of the results. *)
Theorem applyTypeFilter_app (M : PinType) (L1 L2 : list Pin) :
  applyTypeFilter M (L1 ++ L2) = applyTypeFilter M L1 ++ applyTypeFilter M L2.
Proof.
  rewrite !applyTypeFilter_filter.
  destruct (M =? AllType)%N; [reflexivity|apply List.filter_app].
Qed.

(** X3. Adding categories to a mask other than [AllType] never removes
    a pin from the result. *)
Theorem applyTypeFilter_mask_monotone (M1 M2 : PinType) (L : list Pin) (p : Pin) :
  M1 ≠ AllType →
  In p (applyTypeFilter M1 L) → In p (applyTypeFilter (N.lor M1 M2) L).
Proof.
  intros Hne. rewrite !applyTypeFilter_filter.
  apply N.eqb_neq in Hne. rewrite Hne.
  intros [Hin Hkeep]%List.filter_In.
  destruct (N.lor M1 M2 =? AllType)%N; [assumption|].
  apply List.filter_In. split; [assumption|].
  apply negb_true_iff, N.eqb_neq in Hkeep.
  apply negb_true_iff, N.eqb_neq. intros Hzero.
  rewrite N.land_lor_distr_l in Hzero.
  apply N.lor_eq_0_iff in Hzero as [Hzero _]. contradiction.
Qed.

(** ** Filter strings joined with a comma *)

Lemma strings_Split_join (s1 s2 : string) :
  strings_Split (String.append s1 (String "," s2)) ","
  = strings_Split s1 "," ++ strings_Split s2 ",".
Proof.
  induction s1 as [|c s1 IH].
  - reflexivity.
  - change (String.append (String c s1) (String "," s2))
      with (String c (String.append s1 (String "," s2))).
    simpl strings_Split. rewrite IH.
    destruct (Ascii.eqb c ","); [reflexivity|].
    destruct (strings_Split s1 ",") eqn:E; [|reflexivity].
    by apply strings_Split_nonempty in E.
Qed.

Lemma composeTypeFilter_loop_lor (toks : list string) (a : N) :
  fold_left (λ filter f, N.lor filter (PinTypeFromString f)) toks a
  = N.lor a (fold_left (λ filter f, N.lor filter (PinTypeFromString f)) toks 0%N).
Proof.
  revert a. induction toks as [|tok toks IH]; intros a; simpl.
  - by rewrite N.lor_0_r.
  - rewrite (IH (N.lor a _)), (IH (N.lor 0 _)), N.lor_0_l.
    by rewrite N.lor_assoc.
Qed.

(** X4. The mask of two filter strings joined with a comma is the OR of
    their masks, whatever the strings hold; so the result of parsing
    does not depend on the order of the joined parts, and joining a
    string with itself changes nothing. *)
Theorem composeTypeFilter_join (s1 s2 : string) :
  composeTypeFilter (String.append s1 (String "," s2))
  = N.lor (composeTypeFilter s1) (composeTypeFilter s2)
  ∧ ParseTypeFilter (String.append s1 (String "," s2))
    = ParseTypeFilter (String.append s2 (String "," s1))
  ∧ ParseTypeFilter (String.append s1 (String "," s1)) = ParseTypeFilter s1.
Proof.
  assert (Hjoin : ∀ a b, composeTypeFilter (String.append a (String "," b))
                         = N.lor (composeTypeFilter a) (composeTypeFilter b)).
  { intros a b. unfold composeTypeFilter.
    rewrite strings_Split_join, fold_left_app. apply composeTypeFilter_loop_lor. }
  split; [apply Hjoin|]. unfold ParseTypeFilter.
  split; rewrite !Hjoin; [by rewrite N.lor_comm|by rewrite N.lor_diag].
Qed.

(** X5. Splitting a string on commas loses nothing: the tokens hold no
    comma, and joined with commas they give the string back. *)
Theorem strings_Split_concat_inverse (s : string) :
  Forall (λ tok, commaFree tok = true) (strings_Split s ",")
  ∧ String.concat "," (strings_Split s ",") = s.
Proof.
  induction s as [|c s [IHfree IHjoin]].
  - split; [by repeat constructor|reflexivity].
  - simpl strings_Split. destruct (Ascii.eqb c ",") eqn:Hc.
    + apply Ascii.eqb_eq in Hc as ->. split; [by constructor|].
      destruct (strings_Split s ",") as [|tok toks] eqn:E;
        [by apply strings_Split_nonempty in E|].
      change (String.concat "," ("" :: tok :: toks))
        with (String "," (String.concat "," (tok :: toks))).
      by rewrite IHjoin.
    + destruct (strings_Split s ",") as [|tok toks] eqn:E;
        [by apply strings_Split_nonempty in E|].
      apply Forall_cons in IHfree as [Htok Htoks]. split.
      * constructor; [|assumption]. simpl. by rewrite Hc, Htok.
      * rewrite <- IHjoin. by destruct toks.
Qed.

(** ** Local to global on lists *)

(** X6. The unification of a list of local results works item by item:
    the result for a concatenation is the concatenation of the results,
    and no entry of the result is a nil pointer. *)
Theorem pinInfosToGlobal_app (pInfos1 pInfos2 : list PinInfo) :
  pinInfosToGlobal (pInfos1 ++ pInfos2)
  = pinInfosToGlobal pInfos1 ++ pinInfosToGlobal pInfos2
  ∧ Forall (λ g, g ≠ None) (pinInfosToGlobal pInfos1).
Proof.
  rewrite !pinInfosToGlobal_map. split; [apply map_app|].
  apply Forall_forall. intros g (p & <- & _)%list_elem_of_In%in_map_iff. discriminate.
Qed.

(** ** What every handler does *)

Ltac case_handler :=
  repeat match goal with
    | H : ∃ _, decodeCid _ = _ |- _ =>
        let pin := fresh "pin" in destruct H as [pin H]; rewrite H; cbn beta iota
    | H : ∃ _, decodePinPath _ = _ |- _ =>
        let pinpath := fresh "pinpath" in destruct H as [pinpath H]; rewrite H; cbn beta iota
    | |- context [json_Decode ?b] => destruct (json_Decode b)
    | |- context [peer_Decode ?b] => destruct (peer_Decode b)
    | |- context [ParseTypeFilter ?s] => destruct (ParseTypeFilter s)
    | |- context [if ?b then _ else _] => destruct b
    end.

(** X7. Each of the ten handlers embedded here (peer add, unpin,
    unpin by path, allocations, allocation, status-all, status,
    recover-all, recover and GC) either refuses the request, in which
    case it sends a single response with status 400 and an error and
    makes no remote call, or it makes exactly one remote call and then
    sends exactly one response, which carries the error returned by that
    call unchanged.  The other handlers of the file are not covered:
    the add handler hands the request to the multipart uploader. *)
Theorem handler_trace_discipline (route : Route) (r : Request) (rpc : Backend) :
  identifierDecodes route r →
  (∃ msg, serve (HandlerFunc route r) rpc = [Response StatusBadRequest (Some msg) None])
  ∨ (∃ (m : rpcMethod) (req : Args m) status resp,
       serve (HandlerFunc route r) rpc = [RPC m req; Response status (rpc m req).2 resp]).
Proof.
  intros Hdec. destruct route; simpl in Hdec; run_handler; case_handler.
  all: try (left; eexists; reflexivity).
  all: match goal with
       | |- context [RPC ?m ?req] =>
           right; exists m, req; destruct (rpc m req) as [? [?|]]; cbn;
           try match goal with
             | |- context [if ?b then _ else _] => destruct b
             end;
           by eexists _, _
       end.
Qed.

(** X8. In every response of each of the ten handlers embedded here
    (peer add, unpin, unpin by path, allocations, allocation,
    status-all, status, recover-all, recover and GC), an explicit status
    is 400 or 404 and comes with an error and no response value, and a
    response without error is sent under the automatic status with a
    response value.  The other handlers of the file are not covered:
    the peer removal handler answers a success with no response value. *)
Theorem handler_response_discipline (route : Route) (r : Request) (rpc : Backend) :
  identifierDecodes route r →
  forallb responseDiscipline (serve (HandlerFunc route r) rpc) = true.
Proof.
  intros Hdec. destruct route; simpl in Hdec; run_handler; case_handler.
  all: try reflexivity.
  all: match goal with
       | |- context [RPC ?m ?req] =>
           destruct (rpc m req) as [? [?|]]; cbn;
           try match goal with
             | |- context [if ?b then _ else _] => destruct b
             end;
           reflexivity
       end.
Qed.

(** X9. Whether a remote call is made, and to which method, is decided
    by the request alone: the replies of the server have no part in it. *)
Theorem handler_call_independent_of_replies (route : Route) (r : Request)
    (rpc1 rpc2 : Backend) :
  identifierDecodes route r →
  calledMethods (serve (HandlerFunc route r) rpc1)
  = calledMethods (serve (HandlerFunc route r) rpc2).
Proof.
  intros Hdec. destruct route; simpl in Hdec; run_handler; case_handler.
  all: try reflexivity.
  all: match goal with
       | |- context [RPC ?m ?req] =>
           destruct (rpc1 m req) as [? [?|]], (rpc2 m req) as [? [?|]]; cbn;
           repeat match goal with
             | |- context [if ?b then _ else _] => destruct b
             end;
           reflexivity
       end.
Qed.

(** X10. The status-all handler either refuses the filter, and then
    nothing is sent to the server, or passes the mask exactly as parsed,
    in local and in global mode alike. *)
Theorem statusAll_filter_passed_as_parsed (r : Request) (rpc : Backend) :
  statusFiltersSent (serve (statusAllHandler r) rpc)
  = (if (TrackerStatusFromString (Values_Get (URL_Query r) "filter")
         =? TrackerStatusUndefined)%Z
        && negb (String.eqb (Values_Get (URL_Query r) "filter") "")
     then []
     else [TrackerStatusFromString (Values_Get (URL_Query r) "filter")]).
Proof.
  run_handler.
  destruct (_ && _); [reflexivity|].
  destruct (String.eqb _ "true");
    match goal with
    | |- context [RPC ?m ?req] => by destruct (rpc m req) as [? [?|]]
    end.
Qed.

(** X11. The status 404 is set explicitly by the unpin, unpin-by-path
    and single-allocation handlers only. *)
Theorem explicit_not_found_routes (route : Route) (r : Request) (rpc : Backend)
    (err : option error) (resp : option Body) :
  identifierDecodes route r →
  In (Response StatusNotFound err resp) (serve (HandlerFunc route r) rpc) →
  route = Unpin ∨ route = UnpinPath ∨ route = Allocation.
Proof.
  clear errorStatus.
  intros Hdec. destruct route; auto; simpl in Hdec; run_handler; case_handler.
  all: repeat match goal with
         | |- context [?server ?m ?req] =>
             match type of server with
             | Backend => destruct (server m req) as [? [?|]]
             end
         end; cbn.
  all: unfold StatusNotFound, StatusBadRequest, SetStatusAutomatically.
  all: intuition discriminate.
Qed.

End RestAPI.

(** * The properties at concrete requests *)

(** The handlers with the example decoders, the peer encoding being the
    identity and the not-found sentinel the text "not found". *)
Local Abbreviation exampleHandlerFunc :=
  (HandlerFunc exampleJSONDecode examplePeerDecode id exampleDecodeCid
               exampleDecodePinPath exampleTrackerStatusFromString
               exampleTrackerStatusUndefined "not found").

Local Abbreviation exampleWritten := (written (λ _, StatusInternalServerError)).

Lemma invalid_params_no_remote_call_witness :
  InvalidParams exampleJSONDecode examplePeerDecode exampleTrackerStatusFromString
                exampleTrackerStatusUndefined Allocations
                (exampleRequest [("filter", "bogus")])
  ∧ ∃ msg,
      serve (exampleHandlerFunc Allocations (exampleRequest [("filter", "bogus")]))
            (exampleBackend [] {| PeerMap := ∅ |})
      = [Response StatusBadRequest (Some msg) None]
      ∧ exampleWritten
          (serve (exampleHandlerFunc Allocations (exampleRequest [("filter", "bogus")]))
                 (exampleBackend [] {| PeerMap := ∅ |}))
        = [{| StatusCode := StatusBadRequest; Content := JSONError msg |}]
      ∧ rpcCalls
          (serve (exampleHandlerFunc Allocations (exampleRequest [("filter", "bogus")]))
                 (exampleBackend [] {| PeerMap := ∅ |}))
        = 0.
Proof.
  assert (Hinv : InvalidParams exampleJSONDecode examplePeerDecode
                   exampleTrackerStatusFromString exampleTrackerStatusUndefined
                   Allocations (exampleRequest [("filter", "bogus")])).
  { apply InvalidTypeFilter with (e := "invalid filter value"). reflexivity. }
  split; [exact Hinv|].
  apply (invalid_params_no_remote_call
           exampleJSONDecode examplePeerDecode id exampleDecodeCid
           exampleDecodePinPath exampleTrackerStatusFromString
           exampleTrackerStatusUndefined "not found"
           (λ _, StatusInternalServerError)
           Allocations (exampleRequest [("filter", "bogus")])
           (exampleBackend [] {| PeerMap := ∅ |}) Hinv).
Defined.

(** With the sentinel "not found", a failure of the unpin call with the
    text "Not Found", the same up to casing, is answered 500 by both
    unpin handlers under an automatic policy that answers 500. *)
Lemma unpin_not_found_other_casing :
  strings_ToLower "Not Found" = strings_ToLower "not found"
  ∧ exampleWritten
      (serve (exampleHandlerFunc Unpin (examplePathRequest "Qm1" []))
             (failingBackend "Not Found"))
    = [{| StatusCode := StatusInternalServerError; Content := JSONError "Not Found" |}]
  ∧ exampleWritten
      (serve (exampleHandlerFunc UnpinPath (examplePathRequest "/ipfs/Qm1" []))
             (failingBackend "Not Found"))
    = [{| StatusCode := StatusInternalServerError; Content := JSONError "Not Found" |}].
Proof. repeat split; reflexivity. Qed.

Lemma unpin_not_found_status_witness :
  UnpinFails exampleDecodeCid exampleDecodePinPath (failingBackend "not found")
             "not found" Unpin (examplePathRequest "Qm1" [])
  ∧ exampleWritten
      (serve (exampleHandlerFunc Unpin (examplePathRequest "Qm1" []))
             (failingBackend "not found"))
    = [{| StatusCode := StatusNotFound; Content := JSONError "not found" |}].
Proof.
  assert (Hfail : UnpinFails exampleDecodeCid exampleDecodePinPath
                    (failingBackend "not found") "not found" Unpin
                    (examplePathRequest "Qm1" [])).
  { apply UnpinFails_cid with (pin := {| Pin_Cid := "Qm1"; Type_ := DataType |});
      reflexivity. }
  split; [exact Hfail|].
  apply (unpin_not_found_status
           exampleJSONDecode examplePeerDecode id exampleDecodeCid
           exampleDecodePinPath exampleTrackerStatusFromString
           exampleTrackerStatusUndefined "not found"
           (λ _, StatusInternalServerError)
           Unpin (examplePathRequest "Qm1" []) (failingBackend "not found")
           "not found" Hfail).
Defined.

(** A GC result of one peer with two collected keys. *)
Local Abbreviation exampleGC :=
  {| PeerMap := {[ "peer1" := {| RepoGC_Peer := "peer1";
                                 RepoGC_Keys := ["Qm1"; "Qm2"];
                                 RepoGC_Error := "" |} ]} |}.

(** The GC operation with the query "filter=bogus", a filter that the
    allocations listing refuses: the remote call is made and its whole
    result is sent, as it is without the parameter. *)
Lemma repoGC_applies_no_type_filter :
  ParseTypeFilter "bogus" = inr "invalid filter value"
  ∧ serve (exampleHandlerFunc RepoGCRoute (exampleRequest [("filter", "bogus")]))
          (exampleBackend [] exampleGC)
    = [RPC Cluster_RepoGC tt;
       Response SetStatusAutomatically None (Some (BGlobalRepoGC exampleGC))]
  ∧ serve (exampleHandlerFunc RepoGCRoute (exampleRequest [("filter", "bogus")]))
          (exampleBackend [] exampleGC)
    = serve (exampleHandlerFunc RepoGCRoute (exampleRequest []))
            (exampleBackend [] exampleGC).
Proof. repeat split; reflexivity. Qed.

Lemma type_filter_in_allocations_only_witness :
  ParseTypeFilter (Values_Get (URL_Query (exampleRequest [("filter", "data,meta")])) "filter")
  = inl 6%N
  ∧ exampleWritten
      (serve (allocationsHandler (exampleRequest [("filter", "data,meta")]))
             (exampleBackend [ {| Pin_Cid := "a"; Type_ := DataType |};
                               {| Pin_Cid := "b"; Type_ := ShardType |};
                               {| Pin_Cid := "c"; Type_ := MetaType |} ] exampleGC))
    = [{| StatusCode := StatusOK;
          Content := JSONBody (BPins [ {| Pin_Cid := "a"; Type_ := DataType |};
                                       {| Pin_Cid := "c"; Type_ := MetaType |} ]) |}].
Proof.
  split; [reflexivity|].
  apply (type_filter_in_allocations_only
           id (λ _, StatusInternalServerError)
           (exampleRequest [("filter", "data,meta")])
           (exampleBackend [ {| Pin_Cid := "a"; Type_ := DataType |};
                             {| Pin_Cid := "b"; Type_ := ShardType |};
                             {| Pin_Cid := "c"; Type_ := MetaType |} ] exampleGC)
           6%N eq_refl).
Defined.

(** The filter "bogus,all": the token "bogus" is looked up to [BadType],
    yet the filter is accepted, with the mask [BadType | AllType]. *)
Lemma ParseTypeFilter_accepts_bad_token :
  In "bogus" (strings_Split "bogus,all" ",")
  ∧ PinTypeFromString "bogus" = BadType
  ∧ ParseTypeFilter "bogus,all" = inl (N.lor BadType AllType).
Proof. split; [left; reflexivity|split; reflexivity]. Qed.

Lemma status_filter_validation_witness :
  exampleTrackerStatusFromString "" = exampleTrackerStatusUndefined
  ∧ statusFiltersSent
      (serve (exampleHandlerFunc StatusAll (exampleRequest [("filter", "")]))
             (exampleBackend [] exampleGC))
    = [exampleTrackerStatusUndefined]
  ∧ serve (exampleHandlerFunc StatusAll (exampleRequest [("filter", "bogus")]))
          (exampleBackend [] exampleGC)
    = [Response StatusBadRequest (Some "invalid filter value") None].
Proof.
  split; [reflexivity|]. split.
  - destruct (status_filter_validation
                id exampleTrackerStatusFromString exampleTrackerStatusUndefined
                (λ _, StatusInternalServerError)
                (exampleRequest [("filter", "")]) (exampleBackend [] exampleGC)
                eq_refl) as [Hempty _].
    destruct (Hempty eq_refl) as [Hsent _]. exact Hsent.
  - destruct (status_filter_validation
                id exampleTrackerStatusFromString exampleTrackerStatusUndefined
                (λ _, StatusInternalServerError)
                (exampleRequest [("filter", "bogus")]) (exampleBackend [] exampleGC)
                eq_refl) as [_ Hbogus].
    assert (Hne : Values_Get (URL_Query (exampleRequest [("filter", "bogus")])) "filter" ≠ "")
      by discriminate.
    destruct (Hbogus Hne eq_refl) as [Hserve _]. exact Hserve.
Defined.

Lemma ParseTypeFilter_reorder_duplicate_witness :
  Forall (λ tok, PinTypeFromString tok ≠ BadType) ["data"; "meta"]
  ∧ Forall (λ tok, PinTypeFromString tok ≠ BadType) ["meta"; "data"; "meta"]
  ∧ (∀ tok, In tok ["data"; "meta"] ↔ In tok ["meta"; "data"; "meta"])
  ∧ ParseTypeFilter "data,meta" = ParseTypeFilter "meta,data,meta".
Proof.
  assert (Hv1 : Forall (λ tok, PinTypeFromString tok ≠ BadType) ["data"; "meta"])
    by (repeat constructor; discriminate).
  assert (Hv2 : Forall (λ tok, PinTypeFromString tok ≠ BadType) ["meta"; "data"; "meta"])
    by (repeat constructor; discriminate).
  assert (Hin : ∀ tok, In tok ["data"; "meta"] ↔ In tok ["meta"; "data"; "meta"])
    by (intros tok; simpl; tauto).
  split; [exact Hv1|]. split; [exact Hv2|]. split; [exact Hin|].
  exact (ParseTypeFilter_reorder_duplicate
           ["data"; "meta"] ["meta"; "data"; "meta"] Hv1 Hv2 Hin).
Defined.

Lemma allocation_errors_are_not_found_witness :
  exampleDecodeCid (examplePathRequest "Qm1" [])
  = inl {| Pin_Cid := "Qm1"; Type_ := DataType |}
  ∧ exampleWritten
      (serve (allocationHandler exampleDecodeCid (examplePathRequest "Qm1" []))
             (failingBackend "context deadline exceeded"))
    = [{| StatusCode := StatusNotFound;
          Content := JSONError "context deadline exceeded" |}].
Proof.
  split; [reflexivity|].
  apply (allocation_errors_are_not_found
           exampleDecodeCid (λ _, StatusInternalServerError)
           (examplePathRequest "Qm1" []) (failingBackend "context deadline exceeded")
           {| Pin_Cid := "Qm1"; Type_ := DataType |} eq_refl).
Defined.

(** Any value of "local" other than "true", and its absence, selects
    the cluster-wide method. *)
Example local_flag_other_values :
  calledMethods (serve (exampleHandlerFunc RepoGCRoute (exampleRequest [("local", "true")]))
                       (exampleBackend [] exampleGC)) = [Cluster_RepoGCLocal]
  ∧ calledMethods (serve (exampleHandlerFunc RepoGCRoute (exampleRequest [("local", "True")]))
                         (exampleBackend [] exampleGC)) = [Cluster_RepoGC]
  ∧ calledMethods (serve (exampleHandlerFunc RepoGCRoute (exampleRequest [("local", "1")]))
                         (exampleBackend [] exampleGC)) = [Cluster_RepoGC]
  ∧ calledMethods (serve (exampleHandlerFunc RepoGCRoute (exampleRequest []))
                         (exampleBackend [] exampleGC)) = [Cluster_RepoGC].
Proof. repeat split; reflexivity. Qed.

Lemma local_flag_selects_method_witness :
  localGlobalMethods Status = Some (Cluster_StatusLocal, Cluster_Status)
  ∧ paramsAccepted exampleDecodeCid exampleTrackerStatusFromString
                   exampleTrackerStatusUndefined Status
                   (examplePathRequest "Qm1" [("local", "True")])
  ∧ calledMethods
      (serve (exampleHandlerFunc Status (examplePathRequest "Qm1" [("local", "True")]))
             (exampleBackend [] exampleGC))
    = [Cluster_Status].
Proof.
  assert (Hok : paramsAccepted exampleDecodeCid exampleTrackerStatusFromString
                  exampleTrackerStatusUndefined Status
                  (examplePathRequest "Qm1" [("local", "True")]))
    by (eexists; reflexivity).
  split; [reflexivity|]. split; [exact Hok|].
  apply (local_flag_selects_method
           exampleJSONDecode examplePeerDecode id exampleDecodeCid
           exampleDecodePinPath exampleTrackerStatusFromString
           exampleTrackerStatusUndefined "not found"
           Status (examplePathRequest "Qm1" [("local", "True")])
           (exampleBackend [] exampleGC)
           Cluster_StatusLocal Cluster_Status eq_refl Hok).
  discriminate.
Defined.

(** * The further properties at concrete requests *)

Lemma applyTypeFilter_mask_monotone_witness :
  DataType ≠ AllType
  ∧ In {| Pin_Cid := "a"; Type_ := DataType |}
       (applyTypeFilter DataType [ {| Pin_Cid := "a"; Type_ := DataType |};
                                   {| Pin_Cid := "b"; Type_ := MetaType |} ])
  ∧ In {| Pin_Cid := "a"; Type_ := DataType |}
       (applyTypeFilter (N.lor DataType MetaType)
                        [ {| Pin_Cid := "a"; Type_ := DataType |};
                          {| Pin_Cid := "b"; Type_ := MetaType |} ]).
Proof.
  assert (Hne : DataType ≠ AllType) by discriminate.
  assert (Hin : In {| Pin_Cid := "a"; Type_ := DataType |}
                   (applyTypeFilter DataType [ {| Pin_Cid := "a"; Type_ := DataType |};
                                               {| Pin_Cid := "b"; Type_ := MetaType |} ]))
    by (left; reflexivity).
  split; [exact Hne|]. split; [exact Hin|].
  exact (applyTypeFilter_mask_monotone
           DataType MetaType
           [ {| Pin_Cid := "a"; Type_ := DataType |};
             {| Pin_Cid := "b"; Type_ := MetaType |} ]
           {| Pin_Cid := "a"; Type_ := DataType |} Hne Hin).
Defined.

Lemma handler_trace_discipline_witness :
  identifierDecodes exampleDecodeCid exampleDecodePinPath Unpin
                    (examplePathRequest "Qm1" [])
  ∧ ((∃ msg, serve (exampleHandlerFunc Unpin (examplePathRequest "Qm1" []))
                   (failingBackend "not found")
             = [Response StatusBadRequest (Some msg) None])
     ∨ (∃ (m : rpcMethod) (req : Args m) status resp,
          serve (exampleHandlerFunc Unpin (examplePathRequest "Qm1" []))
                (failingBackend "not found")
          = [RPC m req; Response status (failingBackend "not found" m req).2 resp])).
Proof.
  assert (Hdec : identifierDecodes exampleDecodeCid exampleDecodePinPath Unpin
                   (examplePathRequest "Qm1" []))
    by (eexists; reflexivity).
  split; [exact Hdec|].
  exact (handler_trace_discipline
           exampleJSONDecode examplePeerDecode id exampleDecodeCid
           exampleDecodePinPath exampleTrackerStatusFromString
           exampleTrackerStatusUndefined "not found"
           Unpin (examplePathRequest "Qm1" []) (failingBackend "not found") Hdec).
Defined.

Lemma handler_response_discipline_witness :
  identifierDecodes exampleDecodeCid exampleDecodePinPath Allocation
                    (examplePathRequest "Qm1" [])
  ∧ forallb responseDiscipline
      (serve (exampleHandlerFunc Allocation (examplePathRequest "Qm1" []))
             (failingBackend "context deadline exceeded"))
    = true.
Proof.
  assert (Hdec : identifierDecodes exampleDecodeCid exampleDecodePinPath Allocation
                   (examplePathRequest "Qm1" []))
    by (eexists; reflexivity).
  split; [exact Hdec|].
  exact (handler_response_discipline
           exampleJSONDecode examplePeerDecode id exampleDecodeCid
           exampleDecodePinPath exampleTrackerStatusFromString
           exampleTrackerStatusUndefined "not found"
           Allocation (examplePathRequest "Qm1" [])
           (failingBackend "context deadline exceeded") Hdec).
Defined.

Lemma handler_call_independent_of_replies_witness :
  identifierDecodes exampleDecodeCid exampleDecodePinPath Status
                    (examplePathRequest "Qm1" [("local", "true")])
  ∧ calledMethods
      (serve (exampleHandlerFunc Status (examplePathRequest "Qm1" [("local", "true")]))
             (failingBackend "context deadline exceeded"))
    = calledMethods
        (serve (exampleHandlerFunc Status (examplePathRequest "Qm1" [("local", "true")]))
               (exampleBackend [] exampleGC)).
Proof.
  assert (Hdec : identifierDecodes exampleDecodeCid exampleDecodePinPath Status
                   (examplePathRequest "Qm1" [("local", "true")]))
    by (eexists; reflexivity).
  split; [exact Hdec|].
  exact (handler_call_independent_of_replies
           exampleJSONDecode examplePeerDecode id exampleDecodeCid
           exampleDecodePinPath exampleTrackerStatusFromString
           exampleTrackerStatusUndefined "not found"
           Status (examplePathRequest "Qm1" [("local", "true")])
           (failingBackend "context deadline exceeded")
           (exampleBackend [] exampleGC) Hdec).
Defined.

Lemma explicit_not_found_routes_witness :
  identifierDecodes exampleDecodeCid exampleDecodePinPath Allocation
                    (examplePathRequest "Qm1" [])
  ∧ In (Response StatusNotFound (Some "context deadline exceeded") None)
       (serve (exampleHandlerFunc Allocation (examplePathRequest "Qm1" []))
              (failingBackend "context deadline exceeded"))
  ∧ (Allocation = Unpin ∨ Allocation = UnpinPath ∨ Allocation = Allocation).
Proof.
  assert (Hdec : identifierDecodes exampleDecodeCid exampleDecodePinPath Allocation
                   (examplePathRequest "Qm1" []))
    by (eexists; reflexivity).
  assert (Hin : In (Response StatusNotFound (Some "context deadline exceeded") None)
                   (serve (exampleHandlerFunc Allocation (examplePathRequest "Qm1" []))
                          (failingBackend "context deadline exceeded")))
    by (right; left; reflexivity).
  split; [exact Hdec|]. split; [exact Hin|].
  exact (explicit_not_found_routes
           exampleJSONDecode examplePeerDecode id exampleDecodeCid
           exampleDecodePinPath exampleTrackerStatusFromString
           exampleTrackerStatusUndefined "not found"
           Allocation (examplePathRequest "Qm1" [])
           (failingBackend "context deadline exceeded")
           (Some "context deadline exceeded") None Hdec Hin).
Defined.

